(** * slow-proxy: the delay handlers of [main.go] and their shutdown glue

    The repository is one Go program: an HTTP server with a handler [slow]
    that holds a response open for a requested duration, a handler [fail]
    that answers 504 at once, and a [main] that shuts the server down on a
    signal.  Two versions of the program are in the tree: the ticking one
    ([main.go], module [MainGo] below) and the sleeping one (the second
    [package main] file, module [SleepGo] below).

    Time is the nanosecond count of Go's [time.Duration], an [int64] held
    in [Z].  A handler run is a list of the effects it performs, in order. *)

From Stdlib Require Import ZArith Ascii String List Lia Bool.
From Stdlib Require Import Floats.SpecFloat.
From stdpp Require Import base gmap strings list.

Local Open Scope string_scope.
Local Open Scope list_scope.
Local Open Scope Z_scope.

(** ** Package [time] of the Go standard library

    [slow] calls [time.ParseDuration]; the function is transcribed here
    from [time/format.go] (Go 1.17 and later) so that the handlers can be
    run on real duration strings.  [uint64] and [float64] values are written out: [u64] wraps
    modulo 2^64 and the fractional part goes through IEEE binary64
    ([SpecFloat], precision 53, emax 1024), as in the Go code. *)
Module GoTime.

Definition Duration := Z.

Definition Nanosecond : Duration := 1.
Definition Microsecond : Duration := 1000 * Nanosecond.
Definition Millisecond : Duration := 1000 * Microsecond.
Definition Second : Duration := 1000 * Millisecond.
Definition Minute : Duration := 60 * Second.
Definition Hour : Duration := 60 * Minute.

(** The three error texts of [ParseDuration]; [orig] is the whole input. *)
Inductive error :=
| invalid_duration (orig : string)
| missing_unit (orig : string)
| unknown_unit (u orig : string).

Definition u64 (z : Z) : Z := z mod 2 ^ 64.
Definition i64 (z : Z) : Z := (z + 2 ^ 63) mod 2 ^ 64 - 2 ^ 63.

Definition float64 := spec_float.
Definition f64_of_Z (z : Z) : float64 := binary_normalize 53 1024 z 0 false.
Definition f64_mul : float64 -> float64 -> float64 := SFmul 53 1024.
Definition f64_div : float64 -> float64 -> float64 := SFdiv 53 1024.

(** Go's conversion [uint64(x)] of a binary64: the fraction is dropped. *)
Definition u64_of_f64 (x : float64) : Z :=
  match x with
  | S754_finite false m e =>
      if 0 <=? e then u64 (Z.pos m * 2 ^ e) else u64 (Z.pos m / 2 ^ (- e))
  | _ => 0
  end.

Definition byte (c : ascii) : Z := Z.of_N (N_of_ascii c).

(** ['0' <= c && c <= '9'] *)
Definition is_digit (c : ascii) : bool := (48 <=? byte c) && (byte c <=? 57).

(** [leadingInt]: consumes the leading [[0-9]*] of [s]; the third component
    is [true] for [errLeadingInt], and then value and rest are zero values. *)
Fixpoint leadingInt_from (x : Z) (s : string) : Z * string * bool :=
  match s with
  | String c s' =>
      if negb (is_digit c) then (x, s, false)
      else if 2 ^ 63 / 10 <? x then (0, "", true)
      else
        let x' := u64 (u64 (x * 10 + byte c) - 48) in
        if 2 ^ 63 <? x' then (0, "", true) else leadingInt_from x' s'
  | EmptyString => (x, s, false)
  end.

Definition leadingInt (s : string) : Z * string * bool := leadingInt_from 0 s.

(** [leadingFraction]: consumes the leading [[0-9]*] of [s] as the digits
    after a decimal point; digits past the overflow point are skipped. *)
Fixpoint leadingFraction_from (x : Z) (scale : float64) (overflow : bool)
    (s : string) : Z * float64 * string :=
  match s with
  | String c s' =>
      if negb (is_digit c) then (x, scale, s)
      else if overflow then leadingFraction_from x scale overflow s'
      else if (2 ^ 63 - 1) / 10 <? x then leadingFraction_from x scale true s'
      else
        let y := u64 (u64 (x * 10 + byte c) - 48) in
        if 2 ^ 63 <? y then leadingFraction_from x scale true s'
        else leadingFraction_from y (f64_mul scale (f64_of_Z 10)) false s'
  | EmptyString => (x, scale, s)
  end.

Definition leadingFraction (s : string) : Z * float64 * string :=
  leadingFraction_from 0 (f64_of_Z 1) false s.

(** The two spellings of the micro sign, as UTF-8 bytes. *)
Definition micro_sign : string :=
  String (ascii_of_nat 194) (String (ascii_of_nat 181) "").
Definition greek_mu : string :=
  String (ascii_of_nat 206) (String (ascii_of_nat 188) "").

Definition unitMap : gmap string Z :=
  list_to_map
    [ ("ns", Nanosecond); ("us", Microsecond);
      (micro_sign +:+ "s", Microsecond); (greek_mu +:+ "s", Microsecond);
      ("ms", Millisecond); ("s", Second); ("m", Minute); ("h", Hour) ].

(** The unit scan: the longest prefix without ['.'] and without digits. *)
Fixpoint unit_span (s : string) : string * string :=
  match s with
  | String c s' =>
      if Ascii.eqb c "."%char || is_digit c then ("", s)
      else let '(u, r) := unit_span s' in (String c u, r)
  | EmptyString => ("", s)
  end.

(** The optional fraction of a group: a ['.'] and its digits.  Returns the
    digits as an integer, their scale, the rest, and whether a digit was
    there. *)
Definition consume_fraction (s : string) : Z * float64 * string * bool :=
  match s with
  | String c s' =>
      if Ascii.eqb c "."%char then
        let '(f, scale, r) := leadingFraction s' in
        (f, scale, r, negb (Nat.eqb (String.length s') (String.length r)))
      else (0, f64_of_Z 1, s, false)
  | EmptyString => (0, f64_of_Z 1, s, false)
  end.

Inductive scan :=
| Scanned (d : Z)
| Failed (e : error)
| Exhausted.

(** The body of [for s != ""], one unit group per round.  Every round eats
    at least one byte, so [String.length s] rounds are enough
    ([parse_groups_fuel]). *)
Fixpoint parse_groups (fuel : nat) (orig : string) (d : Z) (s : string) : scan :=
  match s with
  | EmptyString => Scanned d
  | String c0 _ =>
    match fuel with
    | O => Exhausted
    | S fuel' =>
      if negb (Ascii.eqb c0 "."%char || is_digit c0) then
        Failed (invalid_duration orig)
      else
        let pl := String.length s in
        let '(v, s1, err) := leadingInt s in
        if err then Failed (invalid_duration orig)
        else
          let pre := negb (Nat.eqb pl (String.length s1)) in
          let '(f, scale, s2, post) := consume_fraction s1 in
          if negb pre && negb post then Failed (invalid_duration orig)
          else
            let '(u, s3) := unit_span s2 in
            if String.eqb u "" then Failed (missing_unit orig)
            else
              match unitMap !! u with
              | None => Failed (unknown_unit u orig)
              | Some unit =>
                  if 2 ^ 63 / unit <? v then Failed (invalid_duration orig)
                  else
                    let v1 := u64 (v * unit) in
                    let v2 :=
                      if 0 <? f then
                        u64 (v1 + u64_of_f64
                                    (f64_mul (f64_of_Z f)
                                       (f64_div (f64_of_Z unit) scale)))
                      else v1 in
                    if (0 <? f) && (2 ^ 63 <? v2) then Failed (invalid_duration orig)
                    else
                      let d' := u64 (d + v2) in
                      if 2 ^ 63 <? d' then Failed (invalid_duration orig)
                      else parse_groups fuel' orig d' s3
              end
    end
  end.

(** The leading sign, if any: whether it is a minus, and the rest. *)
Definition consume_sign (s : string) : bool * string :=
  match s with
  | String c s' =>
      if Ascii.eqb c "-"%char || Ascii.eqb c "+"%char
      then (Ascii.eqb c "-"%char, s') else (false, s)
  | EmptyString => (false, s)
  end.

(** [time.ParseDuration]: an optional sign, then one or more groups of
    digits, optional fraction and unit. *)
Definition ParseDuration (s : string) : Duration * option error :=
  let orig := s in
  let '(neg, s) := consume_sign s in
  if String.eqb s "0" then (0, None)
  else if String.eqb s "" then (0, Some (invalid_duration orig))
  else
    match parse_groups (String.length s) orig 0 s with
    | Failed e => (0, Some e)
    | Exhausted => (0, Some (invalid_duration orig))
    | Scanned d =>
        if neg then (i64 (- d), None)
        else if 2 ^ 63 - 1 <? d then (0, Some (invalid_duration orig))
        else (d, None)
    end.

End GoTime.

Import GoTime.

(** ** Effects of a handler call

    A call is observed through the list of effects it performs.  Log
    entries keep level and message (the structured fields [method], [url]
    and [error] are left out).  Instants are counted in nanoseconds from
    the entry of the handler; the statements between two waits take no
    time, so the clock moves only in [Select] and [Sleep]. *)

Inductive Level := InfoLevel | WarnLevel | ErrorLevel.

(** The four cases of the [select] in [slow], in source order. *)
Inductive Case := ReqDone | SrvDone | TimerC | TickerC.

Inductive Effect :=
| Log (lvl : Level) (msg : string)
| Logf (lvl : Level) (format : string) (arg : Duration)
| WriteHeader (code : Z)
| Write (data : string) (ok : bool)
| Flush
| NewTimer (d : Duration)
| NewTicker (d : Duration)
| Select (t : Z) (c : Case)
| Sleep (d : Duration).

Definition Trace := list Effect.

Definition StatusOK : Z := 200.
Definition StatusBadRequest : Z := 400.
Definition StatusGatewayTimeout : Z := 504.

(** A [context.Context]: the instant from which [Done()] is closed, if any. *)
Definition Context := option Z.

Definition done_by (ctx : Context) (t : Z) : bool :=
  match ctx with
  | Some c => c <=? t
  | None => false
  end.

Record Request := {
  Method : string;
  URL : string;
  Vars : gmap string string;
  ReqContext : Context
}.

(** An [http.ResponseWriter]: whether its [n]-th [Write] (from 0) returns an
    error, and whether it also implements [http.Flusher]. *)
Record ResponseWriter := {
  write_err : nat -> bool;
  flusher : bool
}.

(** What the Go runtime decides during one call: the pseudo-random draw of
    the [n]-th [select], used when several cases are ready, and the text of
    a [time.Time] taken at an instant. *)
Record Sched := {
  rand : nat -> nat;
  render : Z -> string
}.

(** *** What the client sees of a run *)

(** The status line: the first [WriteHeader], or 200 when the handler
    writes or returns without one. *)
Fixpoint status (tr : Trace) : Z :=
  match tr with
  | WriteHeader c :: _ => c
  | Write _ _ :: _ => StatusOK
  | _ :: tr' => status tr'
  | [] => StatusOK
  end.

(** The chunks that reached the response body. *)
Fixpoint written (tr : Trace) : list string :=
  match tr with
  | Write data true :: tr' => data :: written tr'
  | _ :: tr' => written tr'
  | [] => []
  end.

Definition body (tr : Trace) : string := String.concat "" (written tr).

(** The clock after a run started at [now]. *)
Fixpoint clock (now : Z) (tr : Trace) : Z :=
  match tr with
  | Select t _ :: tr' => clock t tr'
  | Sleep d :: tr' => clock (now + Z.max 0 d) tr'
  | _ :: tr' => clock now tr'
  | [] => now
  end.

Definition finish (tr : Trace) : Z := clock 0 tr.

Definition LF : string := String (ascii_of_nat 10) "".

(** [fmt.Sprintf("tick: %s\n", tick)] *)
Definition tick_line (sc : Sched) (t : Z) : string :=
  "tick: " +:+ render sc t +:+ LF.

(** [mux.Vars(req)["duration"]]: the empty string when the variable is
    missing. *)
Definition path_duration (req : Request) : string :=
  default "" (Vars req !! "duration").

(** The string handed to [time.ParseDuration]. *)
Definition duration_of (req : Request) : string :=
  if String.eqb (path_duration req) "" then "10s" else path_duration req.

(** The start of [slow], common to both versions: the path variable, its
    default, and the parse.  Returns the effects so far, the pause and the
    parse error. *)
Definition parse_request (req : Request) : Trace * Duration * option error :=
  let logged :=
    if String.eqb (path_duration req) ""
    then [Log InfoLevel "using default duration"] else [] in
  let '(pause, err) := ParseDuration (duration_of req) in
  (logged ++
   match err with
   | Some _ => [Log ErrorLevel "failed to parse duration";
                WriteHeader StatusBadRequest]
   | None => []
   end, pause, err).

(** ** [main.go]: the ticking server *)
Module MainGo.

Record Server := { ctx : Context }.

(** [func (s *Server) fail] *)
Definition fail (s : Server) (rw : ResponseWriter) (req : Request) : Trace :=
  [WriteHeader StatusGatewayTimeout].

Section Slow.
Variables (s : Server) (sc : Sched) (rw : ResponseWriter) (req : Request).
Variable pause : Duration.

(** [time.NewTimer(pause)] fires at [pause], at once when [pause <= 0];
    the [n]-th tick of [time.NewTicker(time.Second)] at [n] seconds. *)
Definition timer_at : Z := Z.max 0 pause.
Definition tick_at (i : nat) : Z := (Z.of_nat i + 1) * Second.

Definition earlier (ctx : Context) (t : Z) : Z :=
  match ctx with
  | Some c => Z.min c t
  | None => t
  end.

(** The cases that can proceed at instant [t], when [i] ticks have been
    received. *)
Definition ready (t : Z) (i : nat) : list Case :=
  (if done_by (ReqContext req) t then [ReqDone] else []) ++
  (if done_by (ctx s) t then [SrvDone] else []) ++
  (if timer_at <=? t then [TimerC] else []) ++
  (if tick_at i <=? t then [TickerC] else []).

(** [select] blocks until a case is ready: the first such instant from
    [now] on. *)
Definition wake (now : Z) (i : nat) : Z :=
  Z.max now
    (earlier (ReqContext req) (earlier (ctx s) (Z.min timer_at (tick_at i)))).

(** Among several ready cases [select] takes one by a random draw. *)
Definition pick (n : nat) (l : list Case) : Case :=
  nth (n mod length l)%nat l TimerC.

(** The [for { select { ... } }] loop, entered for the [i]-th time after
    [i] ticks at instant [i] seconds ([0] at first).  [None]: out of
    fuel. *)
Fixpoint wait (fuel : nat) (i : nat) : option Trace :=
  match fuel with
  | O => None
  | S fuel' =>
      let t := wake (Z.of_nat i * Second) i in
      match pick (rand sc i) (ready t i) with
      | TickerC =>
          if write_err rw i then
            Some [Select t TickerC; Log InfoLevel "tick";
                  Write (tick_line sc t) false;
                  Log ErrorLevel "failed to write tick"]
          else
            rest ← wait fuel' (S i);
            Some ([Select t TickerC; Log InfoLevel "tick";
                   Write (tick_line sc t) true]
                  ++ (if flusher rw then [Log InfoLevel "flush"; Flush] else [])
                  ++ rest)
      | c => Some [Select t c]
      end
  end.

(** Rounds of the loop that any run needs: one per whole second of the
    pause, the round of a tie with the timer, and the last one. *)
Definition rounds : nat := S (S (Z.to_nat (timer_at / Second))).
End Slow.

(** [func (s *Server) slow] *)
Definition slow (s : Server) (sc : Sched) (rw : ResponseWriter) (req : Request)
  : option Trace :=
  let '(start, pause, _) := parse_request req in
  looped ← wait s sc rw req pause (rounds pause) 0;
  Some (start
        ++ [Log InfoLevel "starting request";
            Logf InfoLevel "pausing for %s" pause;
            NewTimer pause; NewTicker Second]
        ++ looped
        ++ [Log InfoLevel "finishing request"]).

(** One call as [net/http] makes it: each request is served on its own
    goroutine with its own writer and request; the handlers share the
    [Server] value, which they only read. *)
Record Call := {
  call_sched : Sched;
  call_rw : ResponseWriter;
  call_req : Request
}.


(** The wait of [server.Shutdown(shutdownCtx)] of [net/http], which comes
    after it has closed the listeners: it goes on until no handler is in
    flight or the context has expired.  [inflight] holds, for each handler
    in flight, the time from the call until it returns.  The result is the
    time spent waiting and whether the context expired.  The listeners and
    the error of closing them are in [ServerShutdown] below. *)
Definition Shutdown (timeout : Duration) (inflight : list Z) : Z * bool :=
  let last := fold_right Z.max 0 inflight in
  if last <=? timeout then (last, false) else (timeout, true).

(** [main] from [<-runningCtx.Done()] to its return when closing the
    listeners reports no error: the log entries and the time it took. *)
Definition main_shutdown (inflight : list Z) : Trace * Z :=
  let '(spent, err) := Shutdown Minute inflight in
  ([Log InfoLevel "received termination signal, shutting down"]
   ++ (if err then [Log WarnLevel "failed to shutdown server"] else [])
   ++ [Log InfoLevel "server shutdown complete"],
   spent).

End MainGo.

(** ** The second [package main] file: the sleeping server *)
Module SleepGo.

(** [func (s *Server) slow]; the server of this version holds the logger
    only. *)
Definition slow (rw : ResponseWriter) (req : Request) : Trace :=
  let '(start, pause, _) := parse_request req in
  start
  ++ [Log InfoLevel "starting request";
      Logf InfoLevel "pausing for %s" pause;
      Sleep pause;
      Log InfoLevel "finishing request"].

End SleepGo.

(** ** Runs of the wait loop

    [deadline] is the first instant, not before the entry of the handler,
    at which one of the three returning cases of the [select] is ready. *)
Definition first_exit (s : MainGo.Server) (req : Request) (pause : Duration) : Z :=
  MainGo.earlier (ReqContext req)
    (MainGo.earlier (MainGo.ctx s) (MainGo.timer_at pause)).

Definition deadline (s : MainGo.Server) (req : Request) (pause : Duration) : Z :=
  Z.max 0 (first_exit s req pause).

(** [Run sc rw T i tr]: [tr] is a run of the loop from its [i]-th round
    when the deadline is [T]: ticks strictly before [T] are served, a tick
    at [T] may be served, and the run ends at [T] or at a failed write. *)
Inductive Run (sc : Sched) (rw : ResponseWriter) (T : Z) : nat -> Trace -> Prop :=
| run_exit i c :
    c <> TickerC ->
    Z.of_nat i * Second <= T -> T <= MainGo.tick_at i ->
    Run sc rw T i [Select T c]
| run_fail i :
    MainGo.tick_at i <= T ->
    write_err rw i = true ->
    Run sc rw T i
      [Select (MainGo.tick_at i) TickerC; Log InfoLevel "tick";
       Write (tick_line sc (MainGo.tick_at i)) false;
       Log ErrorLevel "failed to write tick"]
| run_tick i rest :
    MainGo.tick_at i <= T ->
    write_err rw i = false ->
    Run sc rw T (S i) rest ->
    Run sc rw T i
      ([Select (MainGo.tick_at i) TickerC; Log InfoLevel "tick";
        Write (tick_line sc (MainGo.tick_at i)) true]
       ++ (if flusher rw then [Log InfoLevel "flush"; Flush] else [])
       ++ rest).

(** Every tick of a run to a writer that is an [http.Flusher]: the
    [select] that takes the ticker is followed at once by the log entry,
    one [Write] of the tick line and its flush, and then by the next
    [select]; or, when the write fails, by the end of the run. *)
Fixpoint ticked (sc : Sched) (rw : ResponseWriter) (tr : Trace) : Prop :=
  match tr with
  | Select t TickerC :: rest =>
      ((exists t' c rest',
           rest = Log InfoLevel "tick" :: Write (tick_line sc t) true
                  :: Log InfoLevel "flush" :: Flush
                  :: Select t' c :: rest')
       \/ (rest = [Log InfoLevel "tick"; Write (tick_line sc t) false;
                   Log ErrorLevel "failed to write tick";
                   Log InfoLevel "finishing request"]
           /\ exists n, write_err rw n = true))
      /\ ticked sc rw rest
  | _ :: rest => ticked sc rw rest
  | [] => True
  end.

(** A failed [Write] is the end of a run but for the two log entries. *)
Fixpoint halted (tr : Trace) : Prop :=
  match tr with
  | Write _ false :: rest =>
      rest = [Log ErrorLevel "failed to write tick";
              Log InfoLevel "finishing request"]
  | _ :: rest => halted rest
  | [] => True
  end.

(** The same request with another [duration] path variable. *)
Definition with_duration (req : Request) (d : string) : Request :=
  {| Method := Method req; URL := URL req;
     Vars := <["duration" := d]> (Vars req);
     ReqContext := ReqContext req |}.

(** ** Sample inputs *)
Module Sample.

Definition get (d : string) (c : Context) : Request :=
  {| Method := "GET"; URL := "/slow/" +:+ d;
     Vars := {[ "duration" := d ]}; ReqContext := c |}.

Definition bare (c : Context) : Request :=
  {| Method := "PATCH"; URL := "/slow/"; Vars := ∅; ReqContext := c |}.

(** A scheduler whose draw is always [n]. *)
Definition draw (n : nat) : Sched :=
  {| rand := fun _ => n; render := fun _ => "2006-01-02 15:04:05 +0000 UTC" |}.

Definition sound : ResponseWriter :=
  {| write_err := fun _ => false; flusher := true |}.
Definition unflushed : ResponseWriter :=
  {| write_err := fun _ => false; flusher := false |}.
(** The client goes away before the second write. *)
Definition broken : ResponseWriter :=
  {| write_err := fun n => Nat.leb 1 n; flusher := true |}.

Definition server : MainGo.Server := {| MainGo.ctx := None |}.

End Sample.

(** ** Counting flushes *)

Definition is_flush (e : Effect) : bool :=
  match e with
  | Flush => true
  | _ => false
  end.

Definition flushes (tr : Trace) : nat := length (List.filter is_flush tr).

(** ** [main] and [server.Shutdown]

    What [main] does from the end of its wait on [runningCtx]: its log
    entries, and the two things that [server.Shutdown] of [net/http] does,
    in its order: it closes the listeners first, and waits afterwards. *)
Inductive MainStep :=
| Logged (lvl : Level) (msg : string)
| ListenersClosed (failed : bool)
| Waited (d : Duration).

(** [server.Shutdown(shutdownCtx)]: the listeners are closed, [lnerr]
    telling whether that reported an error, then comes the wait of
    [MainGo.Shutdown]; the error returned is the context's when it has
    expired and the one of the listeners otherwise. *)
Definition ServerShutdown (timeout : Duration) (lnerr : bool)
    (inflight : list Z) : list MainStep * bool :=
  let '(spent, expired) := MainGo.Shutdown timeout inflight in
  ([ListenersClosed lnerr; Waited spent], expired || lnerr).

(** [main] from [<-runningCtx.Done()] to its return. *)
Definition main_exit (lnerr : bool) (inflight : list Z) : list MainStep :=
  let '(steps, err) := ServerShutdown Minute lnerr inflight in
  [Logged InfoLevel "received termination signal, shutting down"]
  ++ steps
  ++ (if err then [Logged WarnLevel "failed to shutdown server"] else [])
  ++ [Logged InfoLevel "server shutdown complete"].

(** The log entries among the steps of [main]. *)
Fixpoint logged (steps : list MainStep) : Trace :=
  match steps with
  | Logged lvl msg :: rest => Log lvl msg :: logged rest
  | _ :: rest => logged rest
  | [] => []
  end.






(** ** Calls in flight when [main] shuts down *)

(** A call and the instant, on the clock of [main], at which its handler
    was entered. *)
Record Flight := {
  entered : Z;
  flight_call : MainGo.Call
}.

(** A server whose context is done at [signal], as a handler entered at
    [e] sees it. *)
Definition server_at (signal e : Z) : MainGo.Server :=
  {| MainGo.ctx := Some (signal - e) |}.


(** For a handler of the sleeping version, whose [main] has the same
    shutdown lines: the time from instant [signal] until it returns. *)
Definition sleeping_remaining (signal : Z) (f : Flight) : Z :=
  entered f
  + finish (SleepGo.slow (MainGo.call_rw (flight_call f))
              (MainGo.call_req (flight_call f)))
  - signal.

(** ** Facts about [time.ParseDuration] *)

Lemma leadingInt_from_length x s v r :
  leadingInt_from x s = (v, r, false) -> (String.length r <= String.length s)%nat.
Proof.
  revert x. induction s as [|c s IH]; intros x; simpl.
  - intros [= <- <-]. simpl. lia.
  - destruct (is_digit c); simpl.
    + destruct (2 ^ 63 / 10 <? x); [discriminate|].
      destruct (2 ^ 63 <? _); [discriminate|].
      intros H. apply IH in H. lia.
    + intros [= <- <-]. simpl. lia.
Qed.

Lemma leadingFraction_from_length x sc o s f sc' r :
  leadingFraction_from x sc o s = (f, sc', r) ->
  (String.length r <= String.length s)%nat.
Proof.
  revert x sc o. induction s as [|c s IH]; intros x sc o; simpl.
  - intros [= <- <- <-]. simpl. lia.
  - destruct (is_digit c); simpl.
    + destruct o; [intros H; apply IH in H; lia|].
      destruct ((2 ^ 63 - 1) / 10 <? x); [intros H; apply IH in H; lia|].
      destruct (2 ^ 63 <? _); intros H; apply IH in H; lia.
    + intros [= <- <- <-]. simpl. lia.
Qed.

Lemma unit_span_length s u r :
  unit_span s = (u, r) ->
  (String.length u + String.length r = String.length s)%nat.
Proof.
  revert u r. induction s as [|c s IH]; intros u r; simpl.
  - intros [= <- <-]. reflexivity.
  - destruct (Ascii.eqb c "." || is_digit c).
    + intros [= <- <-]. reflexivity.
    + destruct (unit_span s) as [u' r'] eqn:E.
      intros [= <- <-]. simpl. specialize (IH _ _ eq_refl). lia.
Qed.

(** The scan of the unit groups never runs out of rounds. *)
Lemma parse_groups_fuel fuel orig d s :
  (String.length s <= fuel)%nat -> parse_groups fuel orig d s <> Exhausted.
Proof.
  revert d s. induction fuel as [|fuel IH]; intros d s Hlen.
  - destruct s; simpl in *; [discriminate | lia].
  - destruct s as [|c0 s0]; [simpl; discriminate|].
    cbn [parse_groups].
    destruct (negb _); [discriminate|].
    destruct (leadingInt (String c0 s0)) as [[v s1] err] eqn:Eint.
    destruct err; [discriminate|].
    apply leadingInt_from_length in Eint.
    destruct (consume_fraction s1) as [[[f scale] s2] post] eqn:Efr.
    assert (String.length s2 <= String.length s1)%nat as Hs2.
    { unfold consume_fraction in Efr.
      destruct s1 as [|c1 s1']; [injection Efr as <- <- <- <-; lia|].
      destruct (Ascii.eqb c1 ".").
      - destruct (leadingFraction s1') as [[f' sc'] r'] eqn:Elf.
        apply leadingFraction_from_length in Elf.
        injection Efr as <- <- <- <-. simpl. lia.
      - injection Efr as <- <- <- <-. lia. }
    destruct (negb _ && negb post); [discriminate|].
    destruct (unit_span s2) as [u s3] eqn:Eu.
    apply unit_span_length in Eu.
    destruct (String.eqb_spec u ""); [discriminate|].
    destruct (unitMap !! u); [|discriminate].
    destruct (2 ^ 63 / _ <? v); [discriminate|].
    destruct (_ && _); [discriminate|].
    destruct (2 ^ 63 <? _); [discriminate|].
    apply IH. destruct u; [congruence|]. simpl in *. lia.
Qed.

(** Every error return of [ParseDuration] carries the zero duration. *)
Lemma ParseDuration_error_zero s d e :
  ParseDuration s = (d, Some e) -> d = 0.
Proof.
  unfold ParseDuration.
  destruct (consume_sign s) as [neg s'].
  destruct (String.eqb s' "0"); [discriminate|].
  destruct (String.eqb s' ""); [intros [= <- _]; reflexivity|].
  destruct (parse_groups _ _ _ _).
  - destruct neg; [discriminate|].
    destruct (2 ^ 63 - 1 <? d0); [intros [= <- _]; reflexivity | discriminate].
  - intros [= <- _]. reflexivity.
  - intros [= <- _]. reflexivity.
Qed.

Lemma ParseDuration_default : ParseDuration "10s" = (10 * Second, None).
Proof. vm_compute. reflexivity. Qed.

(** ** Facts about traces *)

Lemma clock_app now a b : clock now (a ++ b) = clock (clock now a) b.
Proof.
  revert now. induction a as [|e a IH]; intros now; [reflexivity|].
  destruct e; simpl; apply IH.
Qed.

Lemma written_app a b : written (a ++ b) = written a ++ written b.
Proof.
  induction a as [|e a IH]; [reflexivity|].
  destruct e as [| | |data [|]| | | | |]; simpl; rewrite ?IH; reflexivity.
Qed.

Lemma Second_val : Second = 1000000000.
Proof. reflexivity. Qed.

(** ** The loop of [slow] runs as [Run] says *)

Section WaitRuns.
Variables (s : MainGo.Server) (sc : Sched) (rw : ResponseWriter).
Variables (req : Request) (pause : Duration).

Lemma pick_in n l : l <> [] -> In (MainGo.pick n l) l.
Proof.
  intros Hl. unfold MainGo.pick. apply nth_In.
  apply Nat.mod_upper_bound. destruct l; simpl; congruence.
Qed.

Lemma ready_case t i c :
  In c (MainGo.ready s req pause t i) ->
  match c with
  | ReqDone => exists z, ReqContext req = Some z /\ z <= t
  | SrvDone => exists z, MainGo.ctx s = Some z /\ z <= t
  | TimerC => MainGo.timer_at pause <= t
  | TickerC => MainGo.tick_at i <= t
  end.
Proof.
  unfold MainGo.ready, done_by. rewrite !in_app_iff.
  intros [H|[H|[H|H]]].
  - destruct (ReqContext req) as [z|]; [|destruct H].
    destruct (Z.leb_spec z t); [|destruct H].
    destruct H as [<-|[]]. eauto.
  - destruct (MainGo.ctx s) as [z|]; [|destruct H].
    destruct (Z.leb_spec z t); [|destruct H].
    destruct H as [<-|[]]. eauto.
  - destruct (Z.leb_spec (MainGo.timer_at pause) t); [|destruct H].
    destruct H as [<-|[]]. assumption.
  - destruct (Z.leb_spec (MainGo.tick_at i) t); [|destruct H].
    destruct H as [<-|[]]. assumption.
Qed.

Lemma ready_wake now i :
  MainGo.ready s req pause (MainGo.wake s req pause now i) i <> [].
Proof.
  unfold MainGo.ready, MainGo.wake, MainGo.earlier, done_by.
  destruct (ReqContext req) as [a|]; destruct (MainGo.ctx s) as [b|];
    repeat match goal with
           | |- context [?x <=? ?y] => destruct (Z.leb_spec x y)
           end; simpl; try discriminate; exfalso; lia.
Qed.

Lemma earlier_min c a b :
  MainGo.earlier c (Z.min a b) = Z.min (MainGo.earlier c a) b.
Proof. destruct c; simpl; lia. Qed.

Lemma wake_min now i :
  MainGo.wake s req pause now i
  = Z.max now (Z.min (first_exit s req pause) (MainGo.tick_at i)).
Proof. unfold MainGo.wake, first_exit. rewrite !earlier_min. reflexivity. Qed.

Lemma first_exit_timer : first_exit s req pause <= MainGo.timer_at pause.
Proof.
  unfold first_exit, MainGo.earlier.
  destruct (ReqContext req), (MainGo.ctx s); lia.
Qed.

(** A returning case that is ready at [t] puts the first exit before [t]. *)
Lemma ready_exit t i c :
  In c (MainGo.ready s req pause t i) -> c <> TickerC ->
  first_exit s req pause <= t.
Proof.
  intros Hin Hc. apply ready_case in Hin.
  unfold first_exit, MainGo.earlier.
  destruct c; [| | |congruence].
  - destruct Hin as (z & -> & Hz). destruct (MainGo.ctx s); lia.
  - destruct Hin as (z & -> & Hz). destruct (ReqContext req); lia.
  - destruct (ReqContext req), (MainGo.ctx s); lia.
Qed.

Lemma ready_tick t i :
  In TickerC (MainGo.ready s req pause t i) -> MainGo.tick_at i <= t.
Proof. apply ready_case. Qed.

Lemma wait_run fuel i :
  Z.of_nat i * Second <= deadline s req pause ->
  (Z.to_nat (MainGo.timer_at pause / Second) + 2 <= fuel + i)%nat ->
  exists tr,
    MainGo.wait s sc rw req pause fuel i = Some tr /\
    Run sc rw (deadline s req pause) i tr.
Proof.
  revert i. induction fuel as [|fuel IH]; intros i Hi Hfuel.
  - exfalso. pose proof first_exit_timer as Hx. revert Hi Hfuel Hx.
    unfold deadline. generalize (first_exit s req pause) as e.
    unfold MainGo.timer_at. rewrite Second_val. intros.
    Z.div_mod_to_equations. lia.
  - cbn [MainGo.wait].
    pose proof (pick_in (rand sc i) _
                  (ready_wake (Z.of_nat i * Second) i)) as Hin.
    set (t := MainGo.wake s req pause (Z.of_nat i * Second) i) in *.
    assert (Ht : t = Z.max (Z.of_nat i * Second)
                       (Z.min (first_exit s req pause) (MainGo.tick_at i)))
      by apply wake_min.
    destruct (MainGo.pick (rand sc i) (MainGo.ready s req pause t i)) eqn:Ec.
    4:{ apply ready_tick in Hin.
        assert (t = MainGo.tick_at i /\ t <= deadline s req pause) as [Ht' Hlt].
        { revert Hi Hin Ht. unfold deadline, MainGo.tick_at.
          generalize (first_exit s req pause) as e. rewrite Second_val.
          intros. lia. }
        rewrite Ht' in *. clear t Ht Ht' Hin Ec.
        destruct (write_err rw i) eqn:Hw.
        - eexists; split; [reflexivity|]. apply run_fail; assumption.
        - destruct (IH (S i)) as (rest & Hrest & Hrun).
          { revert Hlt. unfold MainGo.tick_at. lia. }
          { lia. }
          rewrite Hrest. eexists; split; [reflexivity|].
          apply run_tick; assumption. }
    all: apply ready_exit in Hin; [|discriminate].
    all: assert (t = deadline s req pause /\ t <= MainGo.tick_at i) as [Ht' Hlt]
        by (revert Hi Hin Ht; unfold deadline, MainGo.tick_at;
            generalize (first_exit s req pause) as e; rewrite Second_val;
            intros; lia).
    all: rewrite Ht'; eexists; split; [reflexivity|].
    all: apply run_exit; [discriminate | assumption | lia].
Qed.
End WaitRuns.

(** ** The start of [slow] *)

Lemma parse_request_eq req :
  parse_request req
  = ((if String.eqb (path_duration req) ""
      then [Log InfoLevel "using default duration"] else [])
     ++ match snd (ParseDuration (duration_of req)) with
        | Some _ => [Log ErrorLevel "failed to parse duration";
                     WriteHeader StatusBadRequest]
        | None => []
        end,
     fst (ParseDuration (duration_of req)),
     snd (ParseDuration (duration_of req))).
Proof.
  unfold parse_request. destruct (ParseDuration (duration_of req)). reflexivity.
Qed.

(** The start neither waits nor writes to the body. *)
Lemma start_quiet req start pause err :
  parse_request req = (start, pause, err) ->
  (forall now, clock now start = now) /\ written start = [] /\
  (forall t c, ~ In (Select t c) start) /\
  (forall data ok, ~ In (Write data ok) start) /\
  ~ In Flush start /\
  forall sc rw tail, ticked sc rw (start ++ tail) <-> ticked sc rw tail.
Proof.
  rewrite parse_request_eq. intros [= <- _ _].
  destruct (String.eqb _ _), (snd _); simpl;
    repeat split; try tauto; intros; intuition discriminate.
Qed.

(** What the client gets when the parse went through: no status yet. *)
Lemma start_parsed req start pause :
  parse_request req = (start, pause, None) ->
  (forall code, ~ In (WriteHeader code) start) /\
  forall tail, status (start ++ tail) = status tail.
Proof.
  rewrite parse_request_eq. intros [= <- _ E]. rewrite E.
  destruct (String.eqb _ _); simpl; split; intros; intuition discriminate.
Qed.

Lemma start_rejected req start pause e :
  parse_request req = (start, pause, Some e) ->
  pause = 0 /\ forall tail, status (start ++ tail) = StatusBadRequest.
Proof.
  rewrite parse_request_eq. intros [= <- Hp He]. split.
  - destruct (ParseDuration (duration_of req)) as [d o] eqn:E.
    simpl in *. subst. eapply ParseDuration_error_zero, E.
  - rewrite He. destruct (String.eqb _ _); reflexivity.
Qed.

(** [slow] always returns, and its loop runs as [Run] says. *)
Lemma slow_run s sc rw req start pause err :
  parse_request req = (start, pause, err) ->
  exists looped,
    MainGo.slow s sc rw req
    = Some (start
            ++ [Log InfoLevel "starting request";
                Logf InfoLevel "pausing for %s" pause;
                NewTimer pause; NewTicker Second]
            ++ looped
            ++ [Log InfoLevel "finishing request"]) /\
    Run sc rw (deadline s req pause) 0 looped.
Proof.
  intros Hp. unfold MainGo.slow. rewrite Hp.
  destruct (wait_run s sc rw req pause (MainGo.rounds pause) 0)
    as (looped & Hw & Hrun).
  - unfold deadline. lia.
  - unfold MainGo.rounds. lia.
  - exists looped. rewrite Hw. split; [reflexivity | assumption].
Qed.

(** ** Properties of every run of the loop *)

Section Runs.
Variables (sc : Sched) (rw : ResponseWriter) (T : Z).

Lemma flush_quiet now :
  clock now (if flusher rw then [Log InfoLevel "flush"; Flush] else []) = now.
Proof. destruct (flusher rw); reflexivity. Qed.

Lemma run_clock i tr :
  Run sc rw T i tr ->
  forall now,
    clock now tr <= T /\
    ((forall n, write_err rw n = false) -> clock now tr = T).
Proof.
  induction 1 as [i c Hc Hi Ht | i Ht Hw | i rest Ht Hw Hrun IH]; intros now.
  - simpl. split; [lia | reflexivity].
  - simpl. split; [assumption|]. intros Hall. rewrite Hall in Hw. discriminate.
  - simpl. rewrite clock_app, flush_quiet. apply IH.
Qed.

(** With the deadline inside the first second no tick is taken. *)
Lemma run_short i tr :
  T < Second -> Run sc rw T i tr ->
  exists c, c <> TickerC /\ tr = [Select T c].
Proof.
  intros HT Hrun.
  destruct Hrun as [i c Hc Hi Ht | i Ht Hw | i rest Ht Hw Hrun].
  - exists c. split; [assumption | reflexivity].
  - exfalso. revert HT Ht. unfold MainGo.tick_at. rewrite Second_val. lia.
  - exfalso. revert HT Ht. unfold MainGo.tick_at. rewrite Second_val. lia.
Qed.

(** While no write fails, the lines written count the whole seconds up
    to the deadline; the tick of the deadline itself may be among them. *)
Lemma run_ticks i tr :
  Run sc rw T i tr -> (forall n, write_err rw n = false) ->
  let n := Z.of_nat i + Z.of_nat (length (written tr)) in
  n * Second <= T <= (n + 1) * Second.
Proof.
  intros Hrun Hall.
  induction Hrun as [i c Hc Hi Ht | i Ht Hw | i rest Ht Hw Hrun IH].
  - simpl. unfold MainGo.tick_at in Ht. lia.
  - rewrite Hall in Hw. discriminate.
  - cbn [app written]. rewrite written_app.
    replace (written (if flusher rw then _ else _)) with (@nil string)
      by (destruct (flusher rw); reflexivity).
    cbn [app length]. cbv zeta in IH |- *. lia.
Qed.




Lemma run_halted i tr :
  Run sc rw T i tr ->
  halted (tr ++ [Log InfoLevel "finishing request"]).
Proof.
  induction 1 as [i c Hc Hi Ht | i Ht Hw | i rest Ht Hw Hrun IH].
  - simpl. exact I.
  - simpl. reflexivity.
  - cbn [app halted]. rewrite <- !app_assoc.
    destruct (flusher rw); simpl; exact IH.
Qed.
End Runs.


Lemma halted_at tr :
  halted tr ->
  forall pre data post, tr = pre ++ Write data false :: post ->
    post = [Log ErrorLevel "failed to write tick";
            Log InfoLevel "finishing request"].
Proof.
  intros Hh pre. revert tr Hh.
  induction pre as [|e pre IH]; intros tr Hh data post ->.
  - exact Hh.
  - apply (IH (pre ++ Write data false :: post) ) with (data := data); [|reflexivity].
    destruct e as [| | |d [|]| | | | |]; simpl in Hh; try assumption.
    destruct pre; simpl in Hh; [discriminate|].
    injection Hh as -> Hpre. destruct pre; simpl in Hpre; [discriminate|].
    injection Hpre as -> Hpre. destruct pre; discriminate.
Qed.

(** ** The deadline *)

Lemma deadline_bounds s req pause :
  0 <= deadline s req pause <= MainGo.timer_at pause.
Proof.
  pose proof (first_exit_timer s req pause).
  unfold deadline, MainGo.timer_at in *. lia.
Qed.

Lemma deadline_nonpos s req pause :
  pause <= 0 -> deadline s req pause = 0.
Proof.
  intros Hp. pose proof (deadline_bounds s req pause) as H.
  unfold MainGo.timer_at in H. lia.
Qed.

Lemma deadline_cancel s req pause c :
  ReqContext req = Some c -> deadline s req pause <= Z.max 0 c.
Proof.
  intros Hc. unfold deadline, first_exit, MainGo.earlier. rewrite Hc.
  destruct (MainGo.ctx s); lia.
Qed.

Lemma deadline_alone s req pause :
  ReqContext req = None -> MainGo.ctx s = None ->
  deadline s req pause = Z.max 0 pause.
Proof.
  intros Hr Hs. unfold deadline, first_exit, MainGo.earlier, MainGo.timer_at.
  rewrite Hr, Hs. lia.
Qed.

(** The loop looks at the request through its context only. *)
Lemma wait_same_context s sc rw req req' pause fuel i :
  ReqContext req = ReqContext req' ->
  MainGo.wait s sc rw req pause fuel i = MainGo.wait s sc rw req' pause fuel i.
Proof.
  intros Hc. revert i. induction fuel as [|fuel IH]; intros i; [reflexivity|].
  cbn [MainGo.wait]. unfold MainGo.wake, MainGo.ready. rewrite Hc, IH.
  reflexivity.
Qed.

Lemma path_duration_default req :
  Vars req !! "duration" = None \/ Vars req !! "duration" = Some "" ->
  path_duration req = "".
Proof. unfold path_duration. intros [-> | ->]; reflexivity. Qed.

Lemma path_duration_with req d : path_duration (with_duration req d) = d.
Proof.
  unfold path_duration, with_duration. simpl.
  rewrite lookup_insert_eq. reflexivity.
Qed.

(** ** The grace period of [main] *)

Lemma longest_upper l : Forall (fun h => h <= fold_right Z.max 0 l) l.
Proof.
  induction l as [|h l IH]; constructor; simpl; [lia|].
  eapply List.Forall_impl; [|exact IH]. simpl. intros. lia.
Qed.




(** ** The claims *)

(** C5: for every request, whatever its method and URL, [fail] writes the
    status 504 Gateway Timeout and returns: the body is empty and no time
    has passed. *)
Theorem fail_gateway_timeout (s : MainGo.Server) (rw : ResponseWriter) (req : Request) :
  MainGo.fail s rw req = [WriteHeader 504] /\
  status (MainGo.fail s rw req) = 504 /\
  body (MainGo.fail s rw req) = "" /\
  finish (MainGo.fail s rw req) = 0.
Proof. repeat split. Qed.

(** C4: when the [duration] path variable is missing or empty, [slow]
    parses "10s": its pause is ten seconds, which is what it arms the timer
    with (what it sleeps, in the sleeping version), and after the log entry
    of the default it does what it does for the same request with the
    variable set to "10s"; so in both versions of the handler. *)
Theorem slow_default_duration (s : MainGo.Server) (sc : Sched)
    (rw : ResponseWriter) (req : Request) :
  Vars req !! "duration" = None \/ Vars req !! "duration" = Some "" ->
  duration_of req = "10s" /\
  ParseDuration (duration_of req) = (10 * Second, None) /\
  parse_request req
  = ([Log InfoLevel "using default duration"], 10 * Second, None) /\
  parse_request (with_duration req "10s") = ([], 10 * Second, None) /\
  MainGo.slow s sc rw req
  = cons (Log InfoLevel "using default duration")
      <$> MainGo.slow s sc rw (with_duration req "10s") /\
  (exists tr,
      MainGo.slow s sc rw (with_duration req "10s") = Some tr /\
      MainGo.slow s sc rw req
      = Some (Log InfoLevel "using default duration" :: tr) /\
      In (NewTimer (10 * Second)) tr /\
      finish tr <= deadline s req (10 * Second) /\
      ((forall n, write_err rw n = false) ->
       finish tr = deadline s req (10 * Second))) /\
  SleepGo.slow rw req
  = Log InfoLevel "using default duration"
      :: SleepGo.slow rw (with_duration req "10s") /\
  In (Sleep (10 * Second)) (SleepGo.slow rw req) /\
  finish (SleepGo.slow rw req) = 10 * Second.
Proof.
  intros Hv. apply path_duration_default in Hv.
  assert (Hd : duration_of req = "10s") by (unfold duration_of; rewrite Hv; reflexivity).
  assert (Hd' : duration_of (with_duration req "10s") = "10s")
    by (unfold duration_of; rewrite path_duration_with; reflexivity).
  assert (Hp : parse_request req
               = ([Log InfoLevel "using default duration"], 10 * Second, None)).
  { rewrite parse_request_eq, Hd, Hv, ParseDuration_default. reflexivity. }
  assert (Hp' : parse_request (with_duration req "10s") = ([], 10 * Second, None)).
  { rewrite parse_request_eq, Hd', path_duration_with, ParseDuration_default.
    reflexivity. }
  destruct (wait_run s sc rw req (10 * Second) (MainGo.rounds (10 * Second)) 0)
    as (looped & Hw & Hrun);
    [unfold deadline; lia | unfold MainGo.rounds; lia |].
  assert (Hs' : MainGo.slow s sc rw (with_duration req "10s")
                = Some ([Log InfoLevel "starting request";
                         Logf InfoLevel "pausing for %s" (10 * Second);
                         NewTimer (10 * Second); NewTicker Second]
                        ++ looped ++ [Log InfoLevel "finishing request"])).
  { unfold MainGo.slow. rewrite Hp'.
    rewrite (wait_same_context s sc rw (with_duration req "10s") req)
      by reflexivity.
    rewrite Hw. reflexivity. }
  assert (Hs : MainGo.slow s sc rw req
               = Some (Log InfoLevel "using default duration"
                       :: [Log InfoLevel "starting request";
                           Logf InfoLevel "pausing for %s" (10 * Second);
                           NewTimer (10 * Second); NewTicker Second]
                          ++ looped ++ [Log InfoLevel "finishing request"])).
  { unfold MainGo.slow. rewrite Hp, Hw. reflexivity. }
  split; [assumption|]. split; [rewrite Hd; apply ParseDuration_default|].
  split; [assumption|]. split; [assumption|].
  split; [rewrite Hs, Hs'; reflexivity|].
  split.
  - eexists. split; [exact Hs'|]. split; [exact Hs|].
    split; [simpl; tauto|].
    unfold finish. cbn [app clock]. rewrite clock_app. cbn [clock].
    apply (run_clock sc rw _ _ _ Hrun).
  - unfold SleepGo.slow. rewrite Hp, Hp'.
    split; [reflexivity|]. split; [simpl; tauto | reflexivity].
Qed.

Lemma slow_default_duration_witness :
  Vars (Sample.bare None) !! "duration" = None /\
  exists tr,
    MainGo.slow Sample.server (Sample.draw 0) Sample.sound (Sample.bare None)
    = Some (Log InfoLevel "using default duration" :: tr) /\
    In (NewTimer (10 * Second)) tr /\
    finish tr = 10 * Second.
Proof.
  split; [reflexivity|].
  destruct (slow_default_duration Sample.server (Sample.draw 0) Sample.sound
              (Sample.bare None))
    as (_ & _ & _ & _ & _ & (tr & _ & Hs & Hin & _ & Hfin) & _).
  - left. reflexivity.
  - exists tr. split; [exact Hs|]. split; [exact Hin|].
    rewrite Hfin by reflexivity. reflexivity.
Defined.

(** C1, at the malformed duration "abc": the status is 400 and no time
    passes, but the handler does not return after the status.  The ticking
    version logs the start of the request, arms timer and ticker and goes
    through one [select]; the sleeping version goes on to its [Sleep]. *)
Theorem malformed_enters_wait (s : MainGo.Server) (sc : Sched)
    (rw : ResponseWriter) (c : Context) :
  ParseDuration "abc" = (0, Some (invalid_duration "abc")) /\
  (exists k, k <> TickerC /\
     MainGo.slow s sc rw (Sample.get "abc" c)
     = Some [Log ErrorLevel "failed to parse duration"; WriteHeader 400;
             Log InfoLevel "starting request";
             Logf InfoLevel "pausing for %s" 0;
             NewTimer 0; NewTicker Second; Select 0 k;
             Log InfoLevel "finishing request"]) /\
  SleepGo.slow rw (Sample.get "abc" c)
  = [Log ErrorLevel "failed to parse duration"; WriteHeader 400;
     Log InfoLevel "starting request";
     Logf InfoLevel "pausing for %s" 0;
     Sleep 0; Log InfoLevel "finishing request"].
Proof.
  assert (Hp : parse_request (Sample.get "abc" c)
               = ([Log ErrorLevel "failed to parse duration"; WriteHeader 400],
                  0, Some (invalid_duration "abc")))
    by (vm_compute; reflexivity).
  split; [vm_compute; reflexivity|]. split.
  - destruct (slow_run s sc rw _ _ _ _ Hp) as (looped & Hs & Hrun).
    rewrite deadline_nonpos in Hrun by lia.
    apply run_short in Hrun; [|rewrite Second_val; lia].
    destruct Hrun as (k & Hk & ->).
    exists k. split; [assumption|]. rewrite Hs. reflexivity.
  - unfold SleepGo.slow. rewrite Hp. reflexivity.
Qed.

(** C9: when the parse fails the pause is the zero duration, so the run
    after the 400 status takes no time: in the ticking version the timer is
    armed with 0 and the [select] never takes the ticker, so no line is
    written; in the sleeping version the sleep is [Sleep 0]. *)
Theorem malformed_waits_zero (s : MainGo.Server) (sc : Sched)
    (rw : ResponseWriter) (req : Request) (d : Duration) (e : error) :
  ParseDuration (duration_of req) = (d, Some e) ->
  d = 0 /\
  (exists tr,
      MainGo.slow s sc rw req = Some tr /\
      status tr = StatusBadRequest /\
      In (NewTimer 0) tr /\
      (forall t, ~ In (Select t TickerC) tr) /\
      written tr = [] /\
      finish tr = 0) /\
  (status (SleepGo.slow rw req) = StatusBadRequest /\
   In (Sleep 0) (SleepGo.slow rw req) /\
   written (SleepGo.slow rw req) = [] /\
   finish (SleepGo.slow rw req) = 0).
Proof.
  intros Hd.
  assert (d = 0) as -> by (eapply ParseDuration_error_zero, Hd).
  pose proof (parse_request_eq req) as Hp. rewrite Hd in Hp. simpl in Hp.
  split; [reflexivity|]. split.
  - destruct (slow_run s sc rw _ _ _ _ Hp) as (looped & Hs & Hrun).
    rewrite deadline_nonpos in Hrun by lia.
    apply run_short in Hrun; [|rewrite Second_val; lia].
    destruct Hrun as (k & Hk & ->).
    eexists. split; [exact Hs|].
    destruct (String.eqb (path_duration req) ""); simpl;
      (repeat split; [tauto | intros t H; destruct k; intuition congruence]).
  - unfold SleepGo.slow. rewrite Hp.
    destruct (String.eqb (path_duration req) ""); simpl;
      repeat split; tauto.
Qed.

Lemma malformed_waits_zero_witness :
  ParseDuration (duration_of (Sample.get "1 second" None))
  = (0, Some (unknown_unit " second" "1 second")) /\
  exists tr,
    MainGo.slow Sample.server (Sample.draw 1) Sample.sound
      (Sample.get "1 second" None) = Some tr /\
    status tr = StatusBadRequest /\ written tr = [] /\ finish tr = 0.
Proof.
  split; [vm_compute; reflexivity|].
  destruct (malformed_waits_zero Sample.server (Sample.draw 1) Sample.sound
              (Sample.get "1 second" None) 0
              (unknown_unit " second" "1 second"))
    as (_ & (tr & Hs & Hst & _ & _ & Hw & Hf) & _).
  - vm_compute. reflexivity.
  - exists tr. repeat split; assumption.
Defined.

(** C10: a duration string that parses to a negative duration is taken as
    valid: no status is written, so the answer is 200, and the call is over
    at once with no line written, since a timer or a sleep with a negative
    duration does not wait. *)
Theorem negative_duration_returns_at_once (s : MainGo.Server) (sc : Sched)
    (rw : ResponseWriter) (req : Request) (d : Duration) :
  ParseDuration (duration_of req) = (d, None) -> d < 0 ->
  (exists tr,
      MainGo.slow s sc rw req = Some tr /\
      (forall code, ~ In (WriteHeader code) tr) /\
      status tr = StatusOK /\
      written tr = [] /\
      finish tr = 0) /\
  ((forall code, ~ In (WriteHeader code) (SleepGo.slow rw req)) /\
   status (SleepGo.slow rw req) = StatusOK /\
   finish (SleepGo.slow rw req) = 0).
Proof.
  intros Hd Hneg.
  pose proof (parse_request_eq req) as Hp. rewrite Hd in Hp. simpl in Hp.
  split.
  - destruct (slow_run s sc rw _ _ _ _ Hp) as (looped & Hs & Hrun).
    rewrite deadline_nonpos in Hrun by lia.
    apply run_short in Hrun; [|rewrite Second_val; lia].
    destruct Hrun as (k & Hk & ->).
    eexists. split; [exact Hs|].
    destruct (String.eqb (path_duration req) ""); simpl;
      repeat split; try (destruct k; reflexivity);
      intros code H; intuition discriminate.
  - unfold SleepGo.slow. rewrite Hp.
    destruct (String.eqb (path_duration req) ""); simpl;
      repeat split; try (unfold finish; simpl; lia);
      intros code H; intuition discriminate.
Qed.

Lemma negative_duration_returns_at_once_witness :
  ParseDuration (duration_of (Sample.get "-5s" None)) = (-5 * Second, None) /\
  -5 * Second < 0 /\
  exists tr,
    MainGo.slow Sample.server (Sample.draw 0) Sample.sound
      (Sample.get "-5s" None) = Some tr /\
    status tr = StatusOK /\ written tr = [] /\ finish tr = 0.
Proof.
  split; [vm_compute; reflexivity|]. split; [reflexivity|].
  destruct (negative_duration_returns_at_once Sample.server (Sample.draw 0)
              Sample.sound (Sample.get "-5s" None) (-5 * Second))
    as ((tr & Hs & _ & Hst & Hw & Hf) & _).
  - vm_compute. reflexivity.
  - reflexivity.
  - exists tr. repeat split; assumption.
Defined.

(** C2, as the sleeping version breaks it: the request for "10s" is
    cancelled after one second, and the handler sleeps on to the tenth
    second, far more than one tick interval after the cancellation. *)
Lemma sleeping_slow_outlives_cancel :
  ParseDuration (duration_of (Sample.get "10s" (Some Second)))
  = (10 * Second, None) /\
  ReqContext (Sample.get "10s" (Some Second)) = Some Second /\
  Second < 10 * Second /\
  finish (SleepGo.slow Sample.sound (Sample.get "10s" (Some Second)))
  = 10 * Second /\
  ~ finish (SleepGo.slow Sample.sound (Sample.get "10s" (Some Second)))
    <= Second + Second.
Proof.
  repeat split; try (vm_compute; reflexivity).
  vm_compute. intros H. apply H. reflexivity.
Qed.

(** C2, amended: in the ticking version a call with a parsed duration is
    over no later than [deadline], the earliest of the delay elapsing, the
    request being cancelled and the server context being cancelled, and
    exactly then unless a write fails before; so a request cancelled at [c]
    before the delay is over ends at [c] (at entry when it was cancelled
    before).  The sleeping version sleeps the whole delay. *)
Theorem ticking_slow_ends_at_deadline (s : MainGo.Server) (sc : Sched)
    (rw : ResponseWriter) (req : Request) (d : Duration) :
  ParseDuration (duration_of req) = (d, None) ->
  exists tr,
    MainGo.slow s sc rw req = Some tr /\
    finish tr <= deadline s req d /\
    ((forall n, write_err rw n = false) -> finish tr = deadline s req d) /\
    (forall c, ReqContext req = Some c -> c < d -> finish tr <= Z.max 0 c).
Proof.
  intros Hd.
  pose proof (parse_request_eq req) as Hp. rewrite Hd in Hp. simpl in Hp.
  destruct (slow_run s sc rw _ _ _ _ Hp) as (looped & Hs & Hrun).
  destruct (start_quiet _ _ _ _ Hp) as (Hclock & _).
  eexists. split; [exact Hs|].
  unfold finish. rewrite clock_app, Hclock. cbn [app clock].
  rewrite clock_app. cbn [clock].
  destruct (run_clock sc rw _ _ _ Hrun 0) as [Hle Heq].
  split; [assumption|]. split; [assumption|].
  intros c Hc _. pose proof (deadline_cancel s req d c Hc). lia.
Qed.

Lemma ticking_slow_ends_at_deadline_witness :
  ParseDuration (duration_of (Sample.get "10s" (Some (1500 * Millisecond))))
  = (10 * Second, None) /\
  exists tr,
    MainGo.slow Sample.server (Sample.draw 0) Sample.sound
      (Sample.get "10s" (Some (1500 * Millisecond))) = Some tr /\
    finish tr = 1500 * Millisecond.
Proof.
  split; [vm_compute; reflexivity|].
  destruct (ticking_slow_ends_at_deadline Sample.server (Sample.draw 0)
              Sample.sound (Sample.get "10s" (Some (1500 * Millisecond)))
              (10 * Second))
    as (tr & Hs & _ & Heq & _).
  - vm_compute. reflexivity.
  - exists tr. split; [assumption|]. rewrite Heq; reflexivity.
Defined.

(** C3, as the code breaks it: for a delay of one second, floor 1, the
    first tick and the timer are ready at the same instant; when the
    [select] takes the timer no line is written. *)
Lemma whole_second_tick_lost :
  ParseDuration (duration_of (Sample.get "1s" None)) = (1 * Second, None) /\
  1 * Second / Second = 1 /\
  exists tr,
    MainGo.slow Sample.server (Sample.draw 0) Sample.sound
      (Sample.get "1s" None) = Some tr /\
    length (written tr) = 0%nat.
Proof.
  split; [vm_compute; reflexivity|]. split; [reflexivity|].
  eexists. split; [vm_compute; reflexivity|]. reflexivity.
Qed.

(** With the other draw the tick of the last second is written. *)
Lemma whole_second_tick_kept :
  exists tr,
    MainGo.slow Sample.server (Sample.draw 1) Sample.sound
      (Sample.get "1s" None) = Some tr /\
    length (written tr) = 1%nat.
Proof. eexists. split; [vm_compute; reflexivity|]. reflexivity. Qed.

(** C3, amended: in the ticking version, with no cancellation and no
    failed write, a parsed delay [d] gives no line when it is under one
    second, [d / Second] lines when it is not a whole number of seconds,
    and for a whole number [k >= 1] of seconds [k - 1] or [k] lines, as the
    [select] takes the timer or the ticker at the last second. *)
Theorem tick_lines_count (s : MainGo.Server) (sc : Sched)
    (rw : ResponseWriter) (req : Request) (d : Duration) :
  ParseDuration (duration_of req) = (d, None) ->
  ReqContext req = None -> MainGo.ctx s = None ->
  (forall n, write_err rw n = false) ->
  exists tr,
    MainGo.slow s sc rw req = Some tr /\
    (d < Second -> Z.of_nat (length (written tr)) = 0) /\
    (0 <= d -> d mod Second <> 0 ->
     Z.of_nat (length (written tr)) = d / Second) /\
    (Second <= d -> d mod Second = 0 ->
     Z.of_nat (length (written tr)) = d / Second - 1 \/
     Z.of_nat (length (written tr)) = d / Second).
Proof.
  intros Hd Hreq Hsrv Hall.
  pose proof (parse_request_eq req) as Hp. rewrite Hd in Hp. simpl in Hp.
  destruct (slow_run s sc rw _ _ _ _ Hp) as (looped & Hs & Hrun).
  destruct (start_quiet _ _ _ _ Hp) as (_ & Hw & _).
  eexists. split; [exact Hs|].
  rewrite written_app, Hw. cbn [app written]. rewrite written_app.
  cbn [written]. rewrite app_nil_r.
  apply run_ticks in Hrun; [|assumption]. cbv zeta in Hrun.
  rewrite deadline_alone in Hrun by assumption.
  pose proof (Nat2Z.is_nonneg (length (written looped))) as Hpos.
  revert Hpos Hrun. generalize (Z.of_nat (length (written looped))) as n.
  rewrite Second_val. intros n Hpos Hn. repeat split; intros.
  - lia.
  - Z.div_mod_to_equations. lia.
  - Z.div_mod_to_equations. lia.
Qed.

Lemma tick_lines_count_witness :
  ParseDuration (duration_of (Sample.get "2.5s" None))
  = (2500 * Millisecond, None) /\
  exists tr,
    MainGo.slow Sample.server (Sample.draw 0) Sample.sound
      (Sample.get "2.5s" None) = Some tr /\
    Z.of_nat (length (written tr)) = 2.
Proof.
  split; [vm_compute; reflexivity|].
  destruct (tick_lines_count Sample.server (Sample.draw 0) Sample.sound
              (Sample.get "2.5s" None) (2500 * Millisecond))
    as (tr & Hs & _ & Hn & _); try reflexivity.
  exists tr. split; [assumption|]. rewrite Hn; [reflexivity | | ]; vm_compute; congruence.
Defined.



(** The run of that request: one tick, written and flushed, and the timer. *)
Lemma flushed_tick_run :
  MainGo.slow Sample.server (Sample.draw 0) Sample.sound
    (Sample.get "1500ms" None)
  = Some [Log InfoLevel "starting request";
          Logf InfoLevel "pausing for %s" (1500 * Millisecond);
          NewTimer (1500 * Millisecond); NewTicker Second;
          Select Second TickerC; Log InfoLevel "tick";
          Write (tick_line (Sample.draw 0) Second) true;
          Log InfoLevel "flush"; Flush;
          Select (1500 * Millisecond) TimerC;
          Log InfoLevel "finishing request"].
Proof. vm_compute. reflexivity. Qed.

Section CutRuns.
Variables (sc : Sched) (rw : ResponseWriter) (T : Z).

End CutRuns.



(** A run with a failing write: the client is gone before the second
    tick. *)
Lemma broken_writer_run :
  MainGo.slow Sample.server (Sample.draw 0) Sample.broken
    (Sample.get "1m" None)
  = Some [Log InfoLevel "starting request";
          Logf InfoLevel "pausing for %s" Minute;
          NewTimer Minute; NewTicker Second;
          Select Second TickerC; Log InfoLevel "tick";
          Write (tick_line (Sample.draw 0) Second) true;
          Log InfoLevel "flush"; Flush;
          Select (2 * Second) TickerC; Log InfoLevel "tick";
          Write (tick_line (Sample.draw 0) (2 * Second)) false;
          Log ErrorLevel "failed to write tick";
          Log InfoLevel "finishing request"].
Proof. vm_compute. reflexivity. Qed.

(** The log of [main] with the listeners left out, when closing them
    reports no error. *)
Lemma main_exit_logged (inflight : list Z) :
  logged (main_exit false inflight) = fst (MainGo.main_shutdown inflight).
Proof.
  unfold main_exit, ServerShutdown, MainGo.main_shutdown.
  destruct (MainGo.Shutdown Minute inflight) as [spent [|]]; reflexivity.
Qed.



(** ** More on the runs of [slow] *)

(** The pause of a request: what [time.ParseDuration] returns for it. *)
Lemma slow_finishes (s : MainGo.Server) (sc : Sched) (rw : ResponseWriter)
    (req : Request) :
  exists start looped,
    parse_request req
    = (start, fst (ParseDuration (duration_of req)),
       snd (ParseDuration (duration_of req))) /\
    MainGo.slow s sc rw req
    = Some (start
            ++ [Log InfoLevel "starting request";
                Logf InfoLevel "pausing for %s"
                  (fst (ParseDuration (duration_of req)));
                NewTimer (fst (ParseDuration (duration_of req)));
                NewTicker Second]
            ++ looped
            ++ [Log InfoLevel "finishing request"]) /\
    Run sc rw (deadline s req (fst (ParseDuration (duration_of req)))) 0 looped /\
    finish (start
            ++ [Log InfoLevel "starting request";
                Logf InfoLevel "pausing for %s"
                  (fst (ParseDuration (duration_of req)));
                NewTimer (fst (ParseDuration (duration_of req)));
                NewTicker Second]
            ++ looped
            ++ [Log InfoLevel "finishing request"])
    = clock 0 looped /\
    written (start
            ++ [Log InfoLevel "starting request";
                Logf InfoLevel "pausing for %s"
                  (fst (ParseDuration (duration_of req)));
                NewTimer (fst (ParseDuration (duration_of req)));
                NewTicker Second]
            ++ looped
            ++ [Log InfoLevel "finishing request"])
    = written looped.
Proof.
  pose proof (parse_request_eq req) as Hp.
  destruct (slow_run s sc rw _ _ _ _ Hp) as (looped & Hs & Hrun).
  destruct (start_quiet _ _ _ _ Hp) as (Hclock & Hw & _).
  eexists _, looped. split; [exact Hp|]. split; [exact Hs|].
  split; [exact Hrun|]. split.
  - unfold finish. rewrite clock_app, Hclock. cbn [app clock].
    rewrite clock_app. reflexivity.
  - rewrite written_app, Hw. cbn [app written]. rewrite written_app.
    cbn [written]. apply app_nil_r.
Qed.

Section MoreRuns.
Variables (sc : Sched) (rw : ResponseWriter) (T : Z).

Lemma flush_written :
  written (if flusher rw return list Effect
           then [Log InfoLevel "flush"; Flush] else []) = [].
Proof. destruct (flusher rw); reflexivity. Qed.

(** A run writes no status line of its own. *)
Lemma run_status i tr tail :
  Run sc rw T i tr -> status (tr ++ tail) = StatusOK \/ status (tr ++ tail) = status tail.
Proof.
  intros Hrun. destruct Hrun; [right | left | left]; reflexivity.
Qed.


(** Failed writes or not, no line is stamped after the deadline. *)
Lemma run_within i tr :
  Run sc rw T i tr ->
  (Z.of_nat i + Z.of_nat (length (written tr))) * Second <= T.
Proof.
  induction 1 as [i c Hc Hi Ht | i Ht Hw | i rest Ht Hw Hrun IH].
  - simpl. lia.
  - simpl. unfold MainGo.tick_at in Ht. rewrite Second_val in *. lia.
  - cbn [app written]. rewrite written_app, flush_written.
    cbn [app length]. lia.
Qed.

Lemma run_flushes i tr :
  Run sc rw T i tr ->
  flushes tr = if flusher rw then length (written tr) else 0%nat.
Proof.
  unfold flushes.
  induction 1 as [i c Hc Hi Ht | i Ht Hw | i rest Ht Hw Hrun IH].
  - destruct (flusher rw); reflexivity.
  - destruct (flusher rw); reflexivity.
  - cbn [app written]. rewrite written_app, flush_written.
    cbn [app length List.filter is_flush].
    rewrite List.filter_app, length_app, IH.
    destruct (flusher rw); reflexivity.
Qed.

(** The first failing write, when it comes before the deadline, ends the
    run at its tick. *)
Lemma run_cut k i tr :
  Run sc rw T i tr -> (i <= k)%nat ->
  (forall j, (j < k)%nat -> write_err rw j = false) ->
  write_err rw k = true -> MainGo.tick_at k < T ->
  forall now,
    clock now tr = MainGo.tick_at k /\
    (i + length (written tr) = k)%nat.
Proof.
  intros Hrun. revert k.
  induction Hrun as [i c Hc Hi Ht | i Ht Hw | i rest Ht Hw Hrun IH];
    intros k Hik Hbefore Hk HT now.
  - exfalso. revert Ht HT. unfold MainGo.tick_at. rewrite Second_val. lia.
  - assert (i = k) as ->.
    { destruct (Nat.eq_dec i k) as [|Hne]; [assumption|].
      rewrite Hbefore in Hw by lia. discriminate. }
    simpl. split; [reflexivity | lia].
  - assert (i <> k) by (intros ->; congruence).
    destruct (IH k) with (now := MainGo.tick_at i) as [Hc Hn];
      [lia | assumption | assumption | assumption |].
    cbn [app written clock]. rewrite clock_app, flush_quiet.
    rewrite written_app, flush_written. cbn [app length].
    split; [exact Hc | lia].
Qed.

(** Away from a tie of a tick with the deadline, the draws of [select] and
    the cases it takes change neither the lines nor the end of a run. *)
Lemma run_settled sc' i tr tr' :
  render sc' = render sc ->
  T mod Second <> 0 ->
  Run sc rw T i tr -> Run sc' rw T i tr' ->
  written tr = written tr' /\ forall now, clock now tr = clock now tr'.
Proof.
  intros Hr HT Hrun. revert tr'.
  assert (Htie : forall j, MainGo.tick_at j <= T -> T <= MainGo.tick_at j -> False).
  { intros j H1 H2. apply HT. assert (T = MainGo.tick_at j) as -> by lia.
    unfold MainGo.tick_at. apply Z.mod_mul. rewrite Second_val. lia. }
  induction Hrun as [i c Hc Hi Ht | i Ht Hw | i rest Ht Hw Hrun IH];
    intros tr' Hrun'; inversion Hrun'; subst; try congruence;
    try (exfalso; eapply Htie; eassumption).
  - split; reflexivity.
  - split; reflexivity.
  - match goal with H : Run sc' rw T (S i) _ |- _ =>
      destruct (IH _ H) as [Hw' Hc'] end.
    unfold tick_line. rewrite Hr. cbn [app written clock].
    rewrite !written_app, !flush_written. cbn [app].
    split; [f_equal; exact Hw'|].
    intros now. rewrite !clock_app, !flush_quiet. apply Hc'.
Qed.
End MoreRuns.

Lemma flushes_app a b : flushes (a ++ b) = (flushes a + flushes b)%nat.
Proof. unfold flushes. rewrite List.filter_app, length_app. reflexivity. Qed.

Lemma start_flushes req start pause err :
  parse_request req = (start, pause, err) -> flushes start = 0%nat.
Proof.
  rewrite parse_request_eq. intros [= <- _ _].
  destruct (String.eqb _ _), (snd _); reflexivity.
Qed.

Lemma deadline_shutdown s req pause c :
  MainGo.ctx s = Some c -> deadline s req pause <= Z.max 0 c.
Proof.
  intros Hc. unfold deadline, first_exit, MainGo.earlier. rewrite Hc.
  destruct (ReqContext req); lia.
Qed.

Lemma longest_idle l : Forall (fun r => r <= 0) l -> fold_right Z.max 0 l = 0.
Proof. induction 1; simpl; lia. Qed.

Lemma longest_member h l : In h l -> h <= fold_right Z.max 0 l.
Proof.
  intros Hin. pose proof (longest_upper l) as Hup.
  rewrite List.Forall_forall in Hup. apply Hup, Hin.
Qed.

(** ** Further properties of the handlers *)

(** X1: the status of a [slow] response is decided by the parse alone: 400
    when [time.ParseDuration] returns an error, 200 otherwise, whatever the
    ticks, the failed writes and the cancellations of the run. *)
Theorem status_follows_parse (s : MainGo.Server) (sc : Sched)
    (rw : ResponseWriter) (req : Request) :
  (exists tr,
      MainGo.slow s sc rw req = Some tr /\
      status tr = match snd (ParseDuration (duration_of req)) with
                  | Some _ => StatusBadRequest
                  | None => StatusOK
                  end) /\
  status (SleepGo.slow rw req)
  = match snd (ParseDuration (duration_of req)) with
    | Some _ => StatusBadRequest
    | None => StatusOK
    end.
Proof.
  destruct (slow_finishes s sc rw req) as (start & looped & Hp & Hs & Hrun & _).
  split.
  - eexists. split; [exact Hs|].
    destruct (snd (ParseDuration (duration_of req))) as [e|].
    + apply (start_rejected _ _ _ _ Hp).
    + destruct (start_parsed _ _ _ Hp) as [_ Hst]. rewrite Hst.
      cbn [app status].
      destruct (run_status sc rw _ _ _ [Log InfoLevel "finishing request"] Hrun)
        as [H|H]; rewrite H; reflexivity.
  - unfold SleepGo.slow. rewrite Hp.
    destruct (snd (ParseDuration (duration_of req))) as [e|].
    + apply (start_rejected _ _ _ _ Hp).
    + destruct (start_parsed _ _ _ Hp) as [_ Hst]. rewrite Hst. reflexivity.
Qed.


(** X3: the ticking handler writes no line for a second that lies after
    its deadline, failed writes and cancellations or not; and while no
    write fails it misses at most the tick of the deadline itself. *)
Theorem lines_within_deadline (s : MainGo.Server) (sc : Sched)
    (rw : ResponseWriter) (req : Request) :
  exists tr,
    MainGo.slow s sc rw req = Some tr /\
    Z.of_nat (length (written tr)) * Second
    <= deadline s req (fst (ParseDuration (duration_of req))) /\
    ((forall n, write_err rw n = false) ->
     deadline s req (fst (ParseDuration (duration_of req)))
     <= (Z.of_nat (length (written tr)) + 1) * Second).
Proof.
  destruct (slow_finishes s sc rw req)
    as (start & looped & Hp & Hs & Hrun & _ & Hw).
  eexists. split; [exact Hs|]. rewrite Hw. split.
  - apply run_within in Hrun. simpl in Hrun. exact Hrun.
  - intros Hall. apply run_ticks in Hrun; [|assumption].
    cbv zeta in Hrun. simpl in Hrun. lia.
Qed.

(** X4: the ticking handler flushes once for each line that reached the
    body when the writer is an [http.Flusher], and never otherwise. *)
Theorem flushes_match_lines (s : MainGo.Server) (sc : Sched)
    (rw : ResponseWriter) (req : Request) :
  exists tr,
    MainGo.slow s sc rw req = Some tr /\
    flushes tr = if flusher rw then length (written tr) else 0%nat.
Proof.
  destruct (slow_finishes s sc rw req)
    as (start & looped & Hp & Hs & Hrun & _ & Hw).
  eexists. split; [exact Hs|]. rewrite Hw.
  rewrite flushes_app, (start_flushes _ _ _ _ Hp). cbn [app].
  change (flushes (Log InfoLevel "starting request" :: ?l)) with (flushes l).
  rewrite <- (run_flushes sc rw _ _ _ Hrun).
  unfold flushes. cbn [List.filter is_flush]. rewrite List.filter_app, length_app.
  simpl. lia.
Qed.

(** X5: when the request context or the server context is cancelled at the
    entry of the ticking handler or before, the handler returns at once and
    writes nothing, whatever the duration asked for. *)
Theorem cancelled_on_entry (s : MainGo.Server) (sc : Sched)
    (rw : ResponseWriter) (req : Request) (c : Z) :
  ReqContext req = Some c \/ MainGo.ctx s = Some c -> c <= 0 ->
  exists tr,
    MainGo.slow s sc rw req = Some tr /\
    written tr = [] /\ flushes tr = 0%nat /\ finish tr = 0.
Proof.
  intros Hctx Hc.
  destruct (slow_finishes s sc rw req)
    as (start & looped & Hp & Hs & Hrun & Hf & Hw).
  assert (HT : deadline s req (fst (ParseDuration (duration_of req))) = 0).
  { pose proof (deadline_bounds s req (fst (ParseDuration (duration_of req)))).
    destruct Hctx as [H1|H1];
      [apply deadline_cancel with (s := s) (pause := fst (ParseDuration (duration_of req))) in H1
      |apply deadline_shutdown with (req := req) (pause := fst (ParseDuration (duration_of req))) in H1];
      lia. }
  pose proof (run_flushes sc rw _ _ _ Hrun) as Hfl.
  rewrite HT in Hrun. apply run_short in Hrun; [|rewrite Second_val; lia].
  destruct Hrun as (k & Hk & ->).
  eexists. split; [exact Hs|]. rewrite Hw, Hf.
  split; [reflexivity|]. split; [|reflexivity].
  rewrite flushes_app, (start_flushes _ _ _ _ Hp). reflexivity.
Qed.

Lemma cancelled_on_entry_witness :
  exists tr,
    MainGo.slow (server_at 0 5) (Sample.draw 3) Sample.sound
      (Sample.get "1h" None) = Some tr /\
    written tr = [] /\ flushes tr = 0%nat /\ finish tr = 0.
Proof.
  apply (cancelled_on_entry (server_at 0 5) (Sample.draw 3) Sample.sound
           (Sample.get "1h" None) (-5)).
  - right. reflexivity.
  - lia.
Defined.

(** X6: when the [k]-th write (from 0) is the first to fail and its tick
    comes before the deadline, the ticking handler ends at that tick, at
    second [k + 1], with the [k] lines before it in the body. *)
Theorem first_failed_write_cuts (s : MainGo.Server) (sc : Sched)
    (rw : ResponseWriter) (req : Request) (k : nat) :
  (forall j, (j < k)%nat -> write_err rw j = false) ->
  write_err rw k = true ->
  (Z.of_nat k + 1) * Second
  < deadline s req (fst (ParseDuration (duration_of req))) ->
  exists tr,
    MainGo.slow s sc rw req = Some tr /\
    finish tr = (Z.of_nat k + 1) * Second /\
    length (written tr) = k.
Proof.
  intros Hbefore Hk HT.
  destruct (slow_finishes s sc rw req)
    as (start & looped & Hp & Hs & Hrun & Hf & Hw).
  eexists. split; [exact Hs|]. rewrite Hw, Hf.
  destruct (run_cut sc rw _ k 0 looped Hrun) with (now := 0) as [Hc Hn];
    try assumption; [lia|].
  split; [exact Hc | exact Hn].
Qed.

Lemma first_failed_write_cuts_witness :
  exists tr,
    MainGo.slow Sample.server (Sample.draw 0) Sample.broken
      (Sample.get "1m" None) = Some tr /\
    finish tr = (1 + 1) * Second /\
    length (written tr) = 1%nat.
Proof.
  apply (first_failed_write_cuts Sample.server (Sample.draw 0) Sample.broken
           (Sample.get "1m" None) 1).
  - intros j Hj. assert (j = 0%nat) as -> by lia. reflexivity.
  - reflexivity.
  - vm_compute. reflexivity.
Defined.

(** X7: with no cancellation and no failed write the ticking handler
    takes the requested delay to the nanosecond, and no time for a delay
    that is zero or negative. *)
Theorem undisturbed_slow_takes_the_delay (s : MainGo.Server) (sc : Sched)
    (rw : ResponseWriter) (req : Request) :
  ReqContext req = None -> MainGo.ctx s = None ->
  (forall n, write_err rw n = false) ->
  exists tr,
    MainGo.slow s sc rw req = Some tr /\
    finish tr = Z.max 0 (fst (ParseDuration (duration_of req))).
Proof.
  intros Hreq Hsrv Hall.
  destruct (slow_finishes s sc rw req)
    as (start & looped & Hp & Hs & Hrun & Hf & _).
  eexists. split; [exact Hs|]. rewrite Hf.
  destruct (run_clock sc rw _ _ _ Hrun 0) as [_ Heq].
  rewrite Heq by assumption. apply deadline_alone; assumption.
Qed.

Lemma undisturbed_slow_takes_the_delay_witness :
  exists tr,
    MainGo.slow Sample.server (Sample.draw 1) Sample.unflushed
      (Sample.get "1m30.5s" None) = Some tr /\
    finish tr = 90500 * Millisecond.
Proof.
  destruct (undisturbed_slow_takes_the_delay Sample.server (Sample.draw 1)
              Sample.unflushed (Sample.get "1m30.5s" None))
    as (tr & Hs & Hf); try reflexivity.
  exists tr. split; [exact Hs|]. rewrite Hf. vm_compute. reflexivity.
Defined.

Lemma sleeping_finish (rw : ResponseWriter) (req : Request) :
  finish (SleepGo.slow rw req)
  = Z.max 0 (fst (ParseDuration (duration_of req))).
Proof.
  pose proof (parse_request_eq req) as Hp.
  destruct (start_quiet _ _ _ _ Hp) as (Hclock & _).
  unfold SleepGo.slow. rewrite Hp.
  unfold finish. rewrite clock_app, Hclock. simpl. lia.
Qed.

(** X8: the sleeping handler never writes to the body nor flushes, and it
    takes the whole delay (no time for a zero or negative one) whatever
    happens to the request context and to the writer. *)
Theorem sleeping_slow_sleeps_through (rw : ResponseWriter) (req : Request) :
  written (SleepGo.slow rw req) = [] /\
  flushes (SleepGo.slow rw req) = 0%nat /\
  finish (SleepGo.slow rw req)
  = Z.max 0 (fst (ParseDuration (duration_of req))).
Proof.
  pose proof (parse_request_eq req) as Hp.
  destruct (start_quiet _ _ _ _ Hp) as (Hclock & Hw & _).
  unfold SleepGo.slow. rewrite Hp. repeat split.
  - rewrite written_app, Hw. reflexivity.
  - rewrite flushes_app, (start_flushes _ _ _ _ Hp). reflexivity.
  - unfold finish. rewrite clock_app, Hclock. simpl. lia.
Qed.

(** X9: away from a tie of a tick with the deadline, that is when the
    deadline is no whole number of seconds, the body and the end of a
    ticking run do not depend on the draws of [select]. *)
Theorem draws_matter_only_at_ties (s : MainGo.Server) (sc sc' : Sched)
    (rw : ResponseWriter) (req : Request) :
  render sc' = render sc ->
  deadline s req (fst (ParseDuration (duration_of req))) mod Second <> 0 ->
  exists tr tr',
    MainGo.slow s sc rw req = Some tr /\
    MainGo.slow s sc' rw req = Some tr' /\
    written tr = written tr' /\
    finish tr = finish tr'.
Proof.
  intros Hr HT.
  destruct (slow_finishes s sc rw req)
    as (start & looped & Hp & Hs & Hrun & Hf & Hw).
  destruct (slow_finishes s sc' rw req)
    as (start' & looped' & Hp' & Hs' & Hrun' & Hf' & Hw').
  eexists _, _. split; [exact Hs|]. split; [exact Hs'|].
  rewrite Hw, Hw', Hf, Hf'.
  destruct (run_settled sc rw _ sc' 0 looped looped' Hr HT Hrun Hrun')
    as [H1 H2].
  split; [exact H1 | apply H2].
Qed.

Lemma draws_matter_only_at_ties_witness :
  exists tr tr',
    MainGo.slow Sample.server (Sample.draw 0) Sample.sound
      (Sample.get "2.5s" (Some (7 * Second))) = Some tr /\
    MainGo.slow Sample.server (Sample.draw 1) Sample.sound
      (Sample.get "2.5s" (Some (7 * Second))) = Some tr' /\
    written tr = written tr' /\
    finish tr = finish tr'.
Proof.
  apply (draws_matter_only_at_ties Sample.server (Sample.draw 0)
           (Sample.draw 1) Sample.sound (Sample.get "2.5s" (Some (7 * Second)))).
  - reflexivity.
  - vm_compute. discriminate.
Defined.





(** X11: shutdown in the sleeping version.  Its handlers sleep through
    the signal, so one whose sleep ends more than a minute after the signal
    makes [main] give up after the minute and log the warning. *)
Theorem sleeping_handler_outlasts_grace (signal : Z) (flights : list Flight)
    (f : Flight) :
  In f flights ->
  signal + Minute
  < entered f
    + fst (ParseDuration (duration_of (MainGo.call_req (flight_call f)))) ->
  MainGo.main_shutdown (sleeping_remaining signal <$> flights)
  = ([Log InfoLevel "received termination signal, shutting down";
      Log WarnLevel "failed to shutdown server";
      Log InfoLevel "server shutdown complete"], Minute).
Proof.
  intros Hin Hlate.
  assert (Hrem : Minute < sleeping_remaining signal f).
  { unfold sleeping_remaining.
    rewrite sleeping_finish. lia. }
  assert (Hmax : Minute < fold_right Z.max 0 (sleeping_remaining signal <$> flights)).
  { eapply Z.lt_le_trans; [exact Hrem|]. apply longest_member.
    apply in_map. exact Hin. }
  unfold MainGo.main_shutdown, MainGo.Shutdown.
  destruct (Z.leb_spec (fold_right Z.max 0 (sleeping_remaining signal <$> flights))
              Minute); [lia | reflexivity].
Qed.

Lemma sleeping_handler_outlasts_grace_witness :
  MainGo.main_shutdown
    (sleeping_remaining (30 * Second)
       <$> [ {| entered := 10 * Second;
                flight_call := {| MainGo.call_sched := Sample.draw 0;
                                  MainGo.call_rw := Sample.sound;
                                  MainGo.call_req := Sample.get "5m" None |} |} ])
  = ([Log InfoLevel "received termination signal, shutting down";
      Log WarnLevel "failed to shutdown server";
      Log InfoLevel "server shutdown complete"], Minute).
Proof.
  eapply sleeping_handler_outlasts_grace.
  - left. reflexivity.
  - vm_compute. reflexivity.
Defined.
